(** * Behavioral taxonomy: the accessor layer of [src/index.ts]

    A shallow embedding of the data model and of the accessor functions of
    [@affectively/behavioral-taxonomy], with the properties of its
    specification stated and settled on that embedding.

    Conventions of the embedding.
    - The four JSON documents are module-level constants of the source;
      here they are the variables of a section, so every accessor reads as
      in the source and takes its document as an argument once the section
      is closed.
    - A JavaScript string is a [string] of code units in the range
      U+0000..U+00FF (Latin-1), on which [toLowerCase] is a map of single
      code units.
    - A loop identifier and the metadata totals are integers ([Z]).
    - A number that enters arithmetic (a difficulty, the average) is a
      [number]: a rational, an infinity or NaN.  An operation on finite
      numbers is the exact operation followed by a rounding [rnd] and by
      overflow to an infinity beyond the largest finite value, as in
      IEEE 754. *)

From Stdlib Require Import Ascii String QArith Qround Qabs Lqa.
From stdpp Require Import gmap strings list fin_maps countable.

Local Open Scope Z_scope.
Local Open Scope string_scope.
Local Open Scope list_scope.

(** ** Types *)

Record BehavioralLoopLogic := {
  given : string;
  when : string;
  then_ : string;
  result : string
}.

Inductive LoopOrigin :=
  GENETIC | BEHAVIORAL | NARRATIVE | DIGITAL | ENVIRONMENTAL.

Inductive LoopModality :=
  | VISUAL_STATIC | VISUAL_DYNAMIC | AUDITORY | HAPTIC | OLFACTORY
  | META | PROXEMIC.

Inductive LoopMutability := IMMUTABLE | STUBBORN | FLUID | VOLATILE.

Inductive LoopValence :=
  | ATTRACTION | REPULSION | DOMINANCE | SUBMISSION | TRUST | DECEPTION
  | DISRUPTION.

Record LoopTaxonomy := {
  origin : LoopOrigin;
  modality : LoopModality;
  (* LoopMutability | number *)
  mutability : LoopMutability + Q;
  valences : list LoopValence
}.

Record LoopOperator := {
  op_name : string;
  mechanism : string
}.

Record LoopVeracity := {
  objectiveGrounding : Q;
  socialConsensus : Q;
  recursiveAmplification : Q;
  frictionIndex : Q
}.

(** A JavaScript number: a finite value, an infinity or NaN. *)
Inductive number := Fin (q : Q) | PInf | NInf | NaN.

Record LoopIntervention := {
  difficulty : number;
  interdict : option string;
  minimize : option string;
  recognize : option string;
  leverage : option string
}.

Record LoopMeta := {
  tags : list string;
  relatedArchetypes : option (list string);
  academicFields : option (list string)
}.

Record BehavioralLoop := {
  id : Z;
  name : string;
  logic : BehavioralLoopLogic;
  taxonomy : LoopTaxonomy;
  operator : LoopOperator;
  veracity : LoopVeracity;
  intervention : LoopIntervention;
  meta : LoopMeta
}.

Record BehavioralCategory := {
  cat_id : string;
  categoryNumber : Z;
  cat_name : string;
  cat_description : string;
  loops : list BehavioralLoop
}.

Record BehavioralLoopsMetadata := {
  title : string;
  version : string;
  description : string;
  totalCategories : Z;
  totalLoops : Z;
  generatedAt : string;
  interventionsAdded : Z;
  updatedAt : string
}.

Record BehavioralLoopsData := {
  metadata : BehavioralLoopsMetadata;
  categories : list BehavioralCategory
}.

(** A JSON value, as [JSON.parse] yields it.  An object is a finite map
    from property names to values. *)
#[warnings="-register-all"]
Inductive jsvalue :=
  | JNull
  | JBool (b : bool)
  | JNum (q : Q)
  | JStr (s : string)
  | JArr (items : list jsvalue)
  | JObj (props : gmap string jsvalue).

Abbreviation jsobject := (gmap string jsvalue).

#[global] Instance LoopOrigin_eq_dec : EqDecision LoopOrigin.
Proof. solve_decision. Defined.

Definition origin_code (o : LoopOrigin) : nat :=
  match o with
  | GENETIC => 0 | BEHAVIORAL => 1 | NARRATIVE => 2 | DIGITAL => 3
  | ENVIRONMENTAL => 4
  end.

Definition origin_of_code (n : nat) : LoopOrigin :=
  match n with
  | 0%nat => GENETIC | 1%nat => BEHAVIORAL | 2%nat => NARRATIVE
  | 3%nat => DIGITAL | _ => ENVIRONMENTAL
  end.

#[global] Instance LoopOrigin_countable : Countable LoopOrigin.
Proof.
  apply (inj_countable' origin_code origin_of_code).
  by intros [].
Defined.

(** ** Strings

    [String.prototype.toLowerCase] on Latin-1 code units: the upper-case
    letters are A..Z (U+0041..U+005A) and the accented capitals
    U+00C0..U+00DE without the multiplication sign U+00D7; each maps to
    the code unit 32 above it, every other code unit to itself.  No code
    unit of this range has a lower-case form that depends on its
    neighbours or that is longer than one code unit.

    The properties of the searches proved below hold for every string
    through two facts only, which are facts of [toLowerCase] on all
    strings: the lower-case form of the empty string is empty, and
    lower-casing twice is lower-casing once.  The values computed on
    sample strings are values on Latin-1 strings. *)

Definition is_upper (c : ascii) : bool :=
  let n := N_of_ascii c in
  ((65 <=? n) && (n <=? 90) || (192 <=? n) && (n <=? 214)
   || (216 <=? n) && (n <=? 222))%N.

Definition lower_unit (c : ascii) : ascii :=
  if is_upper c then ascii_of_N (N_of_ascii c + 32) else c.

Fixpoint toLowerCase (s : string) : string :=
  match s with
  | EmptyString => EmptyString
  | String c s' => String (lower_unit c) (toLowerCase s')
  end.

(** [s.includes(sub)]: [sub] occurs in [s] at some position; the empty
    string occurs in every string. *)
Fixpoint includes (s sub : string) : bool :=
  String.prefix sub s
  || match s with
     | EmptyString => false
     | String _ s' => includes s' sub
     end.

(** The UTF-16 code units of a string. *)
Definition code_units (s : string) : list N :=
  map N_of_ascii (list_ascii_of_string s).

(** [String.prototype.toUpperCase] on Latin-1 code units.  The small
    letters a..z, U+00E0..U+00F6 and U+00F8..U+00FE map to the code unit
    32 below; the sharp s U+00DF becomes SS, y with diaeresis U+00FF
    becomes U+0178 and the micro sign U+00B5 becomes U+039C; every other
    code unit maps to itself.  The result may grow or leave Latin-1, so it
    is a list of code units. *)
Definition upper_unit (c : ascii) : list N :=
  let n := N_of_ascii c in
  (if (97 <=? n) && (n <=? 122) || (224 <=? n) && (n <=? 246)
      || (248 <=? n) && (n <=? 254)
   then [n - 32]
   else if n =? 223 then [83; 83]
   else if n =? 255 then [376]
   else if n =? 181 then [924]
   else [n])%N.

Fixpoint toUpperCase (s : string) : list N :=
  match s with
  | EmptyString => []
  | String c s' => upper_unit c ++ toUpperCase s'
  end.

(** ** Numbers

    Finite values are rationals.  An arithmetic operation on finite
    values is the exact operation, rounded by [rnd] to the number format
    as if exponents had no bound, and replaced by an infinity when the
    rounded value lies beyond the largest finite value.  The sign of zero
    is outside the model. *)

(** [Number.MAX_VALUE], (2^53 - 1) * 2^971. *)
Definition max_value : Q := inject_Z ((2 ^ 53 - 1) * 2 ^ 971).

Section Arithmetic.
Variable rnd : Q -> Q.

(** The number an exact result becomes. *)
Definition to_number (q : Q) : number :=
  let r := rnd q in
  if Qle_bool (Qabs r) max_value then Fin r
  else if Qle_bool 0 r then PInf else NInf.

(** [a + b]. *)
Definition num_add (a b : number) : number :=
  match a, b with
  | NaN, _ | _, NaN => NaN
  | Fin x, Fin y => to_number (x + y)
  | PInf, NInf | NInf, PInf => NaN
  | PInf, _ | _, PInf => PInf
  | NInf, _ | _, NInf => NInf
  end.

(** [a / b]. *)
Definition num_div (a b : number) : number :=
  match a, b with
  | NaN, _ | _, NaN => NaN
  | Fin x, Fin y =>
      if Qeq_bool y 0 then
        if Qeq_bool x 0 then NaN else if Qle_bool 0 x then PInf else NInf
      else to_number (x / y)
  | Fin _, (PInf | NInf) => Fin 0
  | PInf, Fin y => if Qle_bool 0 y then PInf else NInf
  | NInf, Fin y => if Qle_bool 0 y then NInf else PInf
  | (PInf | NInf), (PInf | NInf) => NaN
  end.

(** [a * b]. *)
Definition num_mul (a b : number) : number :=
  match a, b with
  | NaN, _ | _, NaN => NaN
  | Fin x, Fin y => to_number (x * y)
  | Fin x, PInf | PInf, Fin x =>
      if Qeq_bool x 0 then NaN else if Qle_bool 0 x then PInf else NInf
  | Fin x, NInf | NInf, Fin x =>
      if Qeq_bool x 0 then NaN else if Qle_bool 0 x then NInf else PInf
  | PInf, PInf | NInf, NInf => PInf
  | PInf, NInf | NInf, PInf => NInf
  end.

(** [Math.round]: the nearest integer, a tie going up. *)
Definition Math_round (a : number) : number :=
  match a with
  | Fin x => Fin (inject_Z (Qfloor (x + (1 # 2))))
  | _ => a
  end.
End Arithmetic.

(** [ToBoolean] of a property read; [None] is [undefined]. *)
Definition ToBoolean (v : option jsvalue) : bool :=
  match v with
  | None | Some JNull => false
  | Some (JBool b) => b
  | Some (JNum q) => negb (Qeq_bool q 0)
  | Some (JStr s) => negb (String.eqb s EmptyString)
  | Some (JArr _) | Some (JObj _) => true
  end.

(** [{...target, ...src}]: the properties of [src] are copied over those
    of [target]. *)
Definition object_spread (target src : jsobject) : jsobject := src ∪ target.

(** ** Data accessors *)

(** The value [getStatistics] returns. *)
Record Statistics := {
  stat_totalLoops : Z;
  stat_totalCategories : Z;
  loopsByOrigin : gmap LoopOrigin nat;
  averageInterventionDifficulty : number
}.

(** A JSON dictionary whose enumeration order matters: its own properties
    in the order [Object.entries] lists them. *)
Definition Object_entries {A} (o : list (string * A)) : list (string * A) := o.

Definition Object_values {A} (o : list (string * A)) : list A := map snd o.

Section Accessors.
(** [data/behavioralLoops.json], typed by the interfaces above. *)
Variable behavioralLoopsData : BehavioralLoopsData.

(** [data/biases.json] and [data/traits.json]: a dictionary with a
    [_metadata] key beside the records, and a dictionary where the key is
    the identifier.  The values of both are JSON objects. *)
Variable biasesData : list (string * jsobject).
Variable traitsData : list (string * jsobject).

(** The rounding of the number format. *)
Variable rnd : Q -> Q.

Definition getBehavioralLoops : BehavioralLoopsData := behavioralLoopsData.

Definition getAllLoops : list BehavioralLoop :=
  let data := getBehavioralLoops in
  flat_map (fun cat => loops cat) (categories data).

Definition getLoopsByCategory (categoryId : string) : list BehavioralLoop :=
  let data := getBehavioralLoops in
  let category :=
    List.find (fun c => String.eqb (cat_id c) categoryId) (categories data) in
  match category with
  | Some c => loops c
  | None => []
  end.

Definition findLoopsByTag (tag : string) : list BehavioralLoop :=
  List.filter
    (fun loop =>
       existsb (fun t => includes (toLowerCase t) (toLowerCase tag))
         (tags (meta loop)))
    getAllLoops.

Definition findLoopsByOrigin (o : LoopOrigin) : list BehavioralLoop :=
  List.filter (fun loop => bool_decide (origin (taxonomy loop) = o))
    getAllLoops.

Definition getLoopById (i : Z) : option BehavioralLoop :=
  List.find (fun loop => Z.eqb (id loop) i) getAllLoops.

Definition searchLoops (query : string) : list BehavioralLoop :=
  let lowerQuery := toLowerCase query in
  List.filter
    (fun loop =>
       includes (toLowerCase (name loop)) lowerQuery
       || includes (toLowerCase (given (logic loop))) lowerQuery
       || includes (toLowerCase (result (logic loop))) lowerQuery)
    getAllLoops.

Definition getBiases : list jsobject :=
  List.filter (fun item => ToBoolean (item !! "id"))
    (Object_values biasesData).

Definition getTraits : list jsobject :=
  map (fun '(i, trait) => object_spread {[ "id" := JStr i ]} trait)
    (Object_entries traitsData).

(** ** Statistics *)

Definition getStatistics : Statistics :=
  let data := getBehavioralLoops in
  let allLoops := getAllLoops in
  let loopsByOrigin :=
    fold_left
      (fun acc loop =>
         let o := origin (taxonomy loop) in
         <[ o := (default 0 (acc !! o) + 1)%nat ]> acc)
      allLoops (∅ : gmap LoopOrigin nat) in
  let avgDifficulty :=
    num_div rnd
      (fold_left
         (fun sum loop => num_add rnd sum (difficulty (intervention loop)))
         allLoops (Fin 0%Q))
      (Fin (inject_Z (Z.of_nat (length allLoops)))) in
  {| stat_totalLoops := totalLoops (metadata data);
     stat_totalCategories := totalCategories (metadata data);
     loopsByOrigin := loopsByOrigin;
     averageInterventionDifficulty :=
       num_div rnd (Math_round (num_mul rnd avgDifficulty (Fin 10%Q)))
         (Fin 10%Q) |}.
End Accessors.

(** ** Notions the properties are stated with *)

(** The partition property as the specification words it. *)
Definition category_partition (data : BehavioralLoopsData) : Prop :=
  getAllLoops data = concat (map loops (categories data))
  /\ flat_map (fun c => getLoopsByCategory data (cat_id c)) (categories data)
     = getAllLoops data.

(** Case-insensitive search as the specification words it, on pairs of
    queries the second of which is the first written in capitals: such
    queries differ only in letter case. *)
Definition search_ignores_case (data : BehavioralLoopsData) : Prop :=
  forall q1 q2 : string,
    code_units q2 = toUpperCase q1 ->
    findLoopsByTag data q1 = findLoopsByTag data q2
    /\ searchLoops data q1 = searchLoops data q2.

(** The sum of the counts of a per-origin record. *)
Definition origin_total (m : gmap LoopOrigin nat) : nat :=
  map_fold (fun _ n s => (n + s)%nat) 0%nat m.

(** One step of the reducer of [getStatistics]. *)
Definition count_origin (acc : gmap LoopOrigin nat) (loop : BehavioralLoop)
    : gmap LoopOrigin nat :=
  let o := origin (taxonomy loop) in
  <[ o := (default 0 (acc !! o) + 1)%nat ]> acc.

(** The property as the specification words it: the record made from an
    entry carries the entry's key as its [id]. *)
Definition trait_ids_are_keys (traitsData : list (string * jsobject)) : Prop :=
  forall (n : nat) (k : string) (trait : jsobject),
    Object_entries traitsData !! n = Some (k, trait) ->
    exists r, getTraits traitsData !! n = Some r /\ r !! "id" = Some (JStr k).

(** A sentinel entry is one that is not a record: its value has no [id]
    property. *)
Definition is_sentinel (item : jsobject) : bool :=
  match item !! "id" with
  | None => true
  | Some _ => false
  end.

(** The property as the specification words it. *)
Definition biases_less_sentinels (biasesData : list (string * jsobject)) : Prop :=
  length (getBiases biasesData)
  = (length biasesData
     - length (List.filter is_sentinel (Object_values biasesData)))%nat
  /\ (forall item, item ∈ Object_values biasesData ->
        is_sentinel item = false -> item ∈ getBiases biasesData)
  /\ (forall item, item ∈ Object_values biasesData ->
        is_sentinel item = true -> item ∉ getBiases biasesData).

(** Every [id] property that is present is truthy (for a string: not
    empty). *)
Definition ids_truthy (biasesData : list (string * jsobject)) : Prop :=
  forall item v, item ∈ Object_values biasesData ->
    item !! "id" = Some v -> ToBoolean (Some v) = true.

(** The running sum of the reducer of [getStatistics]. *)
Definition difficulty_sum (rnd : Q -> Q) (ls : list BehavioralLoop) : number :=
  fold_left (fun sum loop => num_add rnd sum (difficulty (intervention loop)))
    ls (Fin 0%Q).

(** The number of elements of an array, as a number. *)
Definition array_length {A} (l : list A) : Q := inject_Z (Z.of_nat (length l)).

(** A number that is finite and between two bounds. *)
Definition in_range (lo hi : Q) (x : number) : Prop :=
  match x with
  | Fin q => (lo <= q /\ q <= hi)%Q
  | _ => False
  end.

(** Every loop's difficulty is a rating from 1 to 10. *)
Definition difficulties_rated (ls : list BehavioralLoop) : Prop :=
  Forall (fun loop => in_range 1 10 (difficulty (intervention loop))) ls.

(** A number that is neither an infinity nor NaN. *)
Definition is_finite (x : number) : Prop :=
  match x with
  | Fin _ => True
  | _ => False
  end.

(** A number that is the integer [z]. *)
Definition is_whole (z : Z) (x : number) : Prop :=
  match x with
  | Fin q => (q == inject_Z z)%Q
  | _ => False
  end.

(** An array holds at most 2^32 - 1 elements. *)
Definition max_array_length : Z := 2 ^ 32 - 1.

(** The range property as the specification words it. *)
Definition average_is_rated (rnd : Q -> Q) (data : BehavioralLoopsData) : Prop :=
  difficulties_rated (getAllLoops data) ->
  in_range 1 10 (averageInterventionDifficulty (getStatistics data rnd)).

(** ** Sample documents *)

Definition sample_loop (i : Z) (nm : string) (o : LoopOrigin) (d : Q)
    (tgs : list string) : BehavioralLoop :=
  {| id := i;
     name := nm;
     logic := {| given := "A phone within reach"; when := "A notification";
                 then_ := "The feed is opened"; result := "Attention is lost" |};
     taxonomy := {| origin := o; modality := VISUAL_DYNAMIC;
                    mutability := inl FLUID; valences := [ATTRACTION] |};
     operator := {| op_name := "Variable reward"; mechanism := "Dopamine" |};
     veracity := {| objectiveGrounding := 7 # 10; socialConsensus := 1 # 2;
                    recursiveAmplification := 9 # 10; frictionIndex := 3 # 10 |};
     intervention := {| difficulty := Fin d; interdict := Some "Mute";
                        minimize := None; recognize := None; leverage := None |};
     meta := {| tags := tgs; relatedArchetypes := None;
                academicFields := None |} |}.

Definition loop_scroll : BehavioralLoop :=
  sample_loop 1 "Infinite Scroll" DIGITAL 3 ["Trust"; "feed"].
Definition loop_habit : BehavioralLoop :=
  sample_loop 2 "Morning habit" BEHAVIORAL 8 ["routine"].
Definition loop_gaze : BehavioralLoop :=
  sample_loop 3 "Gaze lock" GENETIC 10 ["eye contact"; "TRUSTED"].

Definition sample_metadata : BehavioralLoopsMetadata :=
  {| title := "Behavioral loops"; version := "1.0.0"; description := EmptyString;
     totalCategories := 279; totalLoops := 1140; generatedAt := EmptyString;
     interventionsAdded := 0; updatedAt := EmptyString |}.

Definition sample_category (i : string) (n : Z) (ls : list BehavioralLoop)
    : BehavioralCategory :=
  {| cat_id := i; categoryNumber := n; cat_name := i; cat_description := EmptyString;
     loops := ls |}.

(** Two categories, three loops; the metadata declares other totals. *)
Definition sample_data : BehavioralLoopsData :=
  {| metadata := sample_metadata;
     categories := [ sample_category "digital-cognitive" 1 [loop_scroll; loop_habit];
                     sample_category "ocular-gaze" 2 [loop_gaze] ] |}.

(** No category at all. *)
Definition empty_data : BehavioralLoopsData :=
  {| metadata := sample_metadata; categories := [] |}.

(** Two categories under one identifier. *)
Definition twin_data : BehavioralLoopsData :=
  {| metadata := sample_metadata;
     categories := [ sample_category "a" 1 [loop_scroll];
                     sample_category "a" 2 [loop_habit] ] |}.

(** The word Strasse written with the sharp s, U+00DF. *)
Definition strasse : string :=
  String.append "stra" (String (ascii_of_N 223) "e").

(** One loop, tagged with that word. *)
Definition loop_street : BehavioralLoop :=
  sample_loop 1 "Street" ENVIRONMENTAL 4 [strasse].

Definition street_data : BehavioralLoopsData :=
  {| metadata := sample_metadata;
     categories := [ sample_category "places" 1 [loop_street] ] |}.

(** Two loops whose difficulty is 10^308; their sum is beyond the
    largest finite value. *)
Definition huge_data : BehavioralLoopsData :=
  {| metadata := sample_metadata;
     categories :=
       [ sample_category "a" 1
           [ sample_loop 1 "One" DIGITAL (inject_Z (10 ^ 308)) [];
             sample_loop 2 "Two" DIGITAL (inject_Z (10 ^ 308)) [] ] ] |}.

(** Arithmetic without rounding. *)
Definition exact : Q -> Q := fun q => q.

(** A trait that carries an [id] of its own, different from its key. *)
Definition traits_own_id : list (string * jsobject) :=
  [ ("openness", {[ "id" := JStr "O"; "name" := JStr "Openness" ]}) ].

(** A dictionary keyed by id whose values omit the identifier. *)
Definition sample_traits : list (string * jsobject) :=
  [ ("openness", {[ "name" := JStr "Openness" ]});
    ("grit", {[ "name" := JStr "Grit"; "dimension" := JStr "conscientiousness" ]}) ].

(** A record whose [id] is the empty string is dropped with the
    sentinel. *)
Definition biases_empty_id : list (string * jsobject) :=
  [ ("_metadata", {[ "version" := JStr "1.0.0" ]});
    ("anchoring", {[ "id" := JStr EmptyString; "name" := JStr "Anchoring" ]}) ].

(** A dictionary with its metadata sentinel and two records. *)
Definition sample_biases : list (string * jsobject) :=
  [ ("_metadata", {[ "version" := JStr "1.0.0" ]});
    ("anchoring", {[ "id" := JStr "anchoring"; "name" := JStr "Anchoring" ]});
    ("halo", {[ "id" := JStr "halo"; "name" := JStr "Halo effect" ]}) ].

(** A rounding that does round: to the multiple of 1/1024 below.  It is
    monotone and keeps every integer. *)
Definition chop (q : Q) : Q := (Qfloor (q * 1024) # 1024)%Q.

(** ** Emotions *)

Inductive EmotionLevel := primary_level | secondary_level | tertiary_level.

Inductive EmotionValence := positive | negative | neutral.

Inductive EmotionArousal := high | medium | low.

Record Emotion := {
  emo_id : string;
  emo_name : string;
  emo_description : string;
  level : EmotionLevel;
  valence : EmotionValence;
  arousal : EmotionArousal;
  ekmanCategory : option string;
  relatedEmotions : option (list string)
}.

(** [data/emotions.json] as [getEmotions] reads it: one list of emotions
    per level, each of which may be missing ([None] is [undefined]). *)
Record EmotionsData := {
  primary : option (list Emotion);
  secondary : option (list Emotion);
  tertiary : option (list Emotion)
}.

(** [a || []] on an array that may be missing: an array, even an empty
    one, is truthy. *)
Definition or_empty {A} (a : option (list A)) : list A :=
  match a with
  | Some l => l
  | None => []
  end.

Section Emotions.
Variable emotionsData : EmotionsData.

Definition getEmotions : list Emotion :=
  let data := emotionsData in
  or_empty (primary data) ++ or_empty (secondary data)
  ++ or_empty (tertiary data).
End Emotions.

(** The five origins, in the order of the type's declaration. *)
Definition all_origins : list LoopOrigin :=
  [GENETIC; BEHAVIORAL; NARRATIVE; DIGITAL; ENVIRONMENTAL].

(** A loop has at least one tag. *)
Definition has_tags (loop : BehavioralLoop) : bool :=
  match tags (meta loop) with
  | [] => false
  | _ :: _ => true
  end.

Definition sample_emotion (i : string) (l : EmotionLevel) : Emotion :=
  {| emo_id := i; emo_name := i; emo_description := EmptyString; level := l;
     valence := positive; arousal := medium; ekmanCategory := None;
     relatedEmotions := None |}.

(** A document without the tertiary level. *)
Definition sample_emotions : EmotionsData :=
  {| primary := Some [sample_emotion "joy" primary_level];
     secondary := Some [sample_emotion "pride" secondary_level;
                        sample_emotion "relief" secondary_level];
     tertiary := None |}.

(** Three loops that share one rating, in one category. *)
Definition level_data : BehavioralLoopsData :=
  {| metadata := sample_metadata;
     categories :=
       [ sample_category "a" 1
           [ sample_loop 1 "One" DIGITAL 7 []; sample_loop 2 "Two" DIGITAL 7 [];
             sample_loop 3 "Three" GENETIC 7 [] ] ] |}.

(** * Properties *)

(** ** The accessors on the sample documents *)

Example sample_flat :
  getAllLoops sample_data = [loop_scroll; loop_habit; loop_gaze].
Proof. reflexivity. Qed.

Example sample_by_category :
  getLoopsByCategory sample_data "ocular-gaze" = [loop_gaze].
Proof. reflexivity. Qed.

Example sample_by_tag : findLoopsByTag sample_data "trust" = [loop_scroll; loop_gaze].
Proof. reflexivity. Qed.

Example sample_search : searchLoops sample_data "SCROLL" = [loop_scroll].
Proof. reflexivity. Qed.

Example sample_by_id : getLoopById sample_data 2 = Some loop_habit.
Proof. reflexivity. Qed.

Example sample_average :
  averageInterventionDifficulty (getStatistics sample_data exact) = Fin (70 # 10).
Proof. reflexivity. Qed.

Example sample_origins :
  loopsByOrigin (getStatistics sample_data exact) !! DIGITAL = Some 1%nat
  /\ loopsByOrigin (getStatistics sample_data exact) !! NARRATIVE = None.
Proof. split; reflexivity. Qed.

(** ** Array helpers: [find] on a list whose keys are unique *)

Section FindByKey.
Context {A K : Type} (key : A -> K) (eqb : K -> K -> bool).
Hypothesis eqb_eq : forall a b, eqb a b = true <-> a = b.

(** [find] returns the first element whose key matches; when keys are
    unique that is the only one. *)
Lemma find_unique_key (l : list A) (x : A) :
  NoDup (map key l) -> x ∈ l ->
  List.find (fun y => eqb (key y) (key x)) l = Some x.
Proof.
  induction l as [|y l IH]; intros Hnd Hin.
  - by apply elem_of_nil in Hin.
  - apply list.NoDup_cons in Hnd as [Hy Hnd]. simpl.
    apply elem_of_cons in Hin as [->|Hin].
    + assert (eqb (key y) (key y) = true) as -> by by apply eqb_eq.
      done.
    + destruct (eqb (key y) (key x)) eqn:E.
      * apply eqb_eq in E. exfalso. apply Hy. rewrite E.
        apply list_elem_of_fmap. by exists x.
      * by apply IH.
Qed.

(** No element carries the key: [find] returns nothing. *)
Lemma find_absent_key (l : list A) (k : K) :
  (forall y, y ∈ l -> key y <> k) ->
  List.find (fun y => eqb (key y) k) l = None.
Proof.
  induction l as [|y l IH]; intros Hall; [done|]. simpl.
  destruct (eqb (key y) k) eqn:E.
  - apply eqb_eq in E. exfalso. apply (Hall y); [left | done].
  - apply IH. intros z Hz. apply Hall. by right.
Qed.
End FindByKey.

Lemma string_eqb_eq (a b : string) : String.eqb a b = true <-> a = b.
Proof. apply String.eqb_eq. Qed.

Lemma flat_map_pointwise {A B} (f g : A -> list B) (l : list A) :
  (forall x, x ∈ l -> f x = g x) -> flat_map f l = flat_map g l.
Proof.
  induction l as [|x l IH]; intros H; [done|]. simpl.
  rewrite (H x) by left. f_equal. apply IH. intros y Hy. apply H. by right.
Qed.

(** ** C1: identifier round trip *)

(** C1. Under the invariant that loop identifiers are unique in the
    flattened list, looking up the identifier of any loop of
    [getAllLoops] returns that very loop. *)
Theorem getLoopById_roundtrip (data : BehavioralLoopsData) (loop : BehavioralLoop) :
  NoDup (map id (getAllLoops data)) ->
  loop ∈ getAllLoops data ->
  getLoopById data (id loop) = Some loop.
Proof.
  intros Hnd Hin. unfold getLoopById.
  by apply (find_unique_key id Z.eqb Z.eqb_eq).
Qed.

Lemma getLoopById_roundtrip_witness :
  getLoopById sample_data (id loop_gaze) = Some loop_gaze.
Proof.
  apply (getLoopById_roundtrip sample_data loop_gaze).
  - apply (bool_decide_unpack _). vm_compute. reflexivity.
  - rewrite sample_flat. do 2 right. left.
Defined.

(** ** C2: totals come from the metadata *)

(** C2. The totals of [getStatistics] are the declared metadata fields,
    whatever the categories hold. *)
Theorem getStatistics_totals_from_metadata (data : BehavioralLoopsData) (rnd : Q -> Q) :
  stat_totalLoops (getStatistics data rnd) = totalLoops (metadata data)
  /\ stat_totalCategories (getStatistics data rnd)
     = totalCategories (metadata data).
Proof. split; reflexivity. Qed.

(** A document whose metadata disagrees with its categories: the
    statistics report the metadata. *)
Example sample_totals_diverge :
  stat_totalLoops (getStatistics sample_data exact) = 1140
  /\ Z.of_nat (length (getAllLoops sample_data)) = 3
  /\ stat_totalCategories (getStatistics sample_data exact) = 279
  /\ Z.of_nat (length (categories sample_data)) = 2.
Proof. repeat split. Qed.

(** ** C4: flattening and the per-category accessor *)

(** With two categories under one identifier the category accessor
    returns the first one's loops for both. *)
Lemma category_partition_twin_fails : ~ category_partition twin_data.
Proof. intros [_ H]. vm_compute in H. discriminate H. Qed.

(** The second category's loop is flattened, but no category lookup
    returns it. *)
Example twin_loop_unreachable :
  loop_habit ∈ getAllLoops twin_data
  /\ forall cid, loop_habit ∉ getLoopsByCategory twin_data cid.
Proof.
  split.
  - right. left.
  - intros cid. unfold getLoopsByCategory. cbn -[String.eqb].
    destruct (String.eqb "a" cid).
    + intros H. apply list_elem_of_singleton in H. discriminate H.
    + apply not_elem_of_nil.
Qed.

(** C4 (amended). [getAllLoops] is the concatenation of the categories'
    loop lists in category order, for every document; when category
    identifiers are pairwise distinct, concatenating [getLoopsByCategory]
    over the categories' identifiers gives the flattened list again. *)
Theorem getAllLoops_partition (data : BehavioralLoopsData) :
  getAllLoops data = concat (map loops (categories data))
  /\ (NoDup (map cat_id (categories data)) ->
      flat_map (fun c => getLoopsByCategory data (cat_id c)) (categories data)
      = getAllLoops data).
Proof.
  split.
  - unfold getAllLoops, getBehavioralLoops. apply flat_map_concat_map.
  - intros Hnd. unfold getAllLoops, getBehavioralLoops.
    apply flat_map_pointwise.
    intros c Hc. unfold getLoopsByCategory, getBehavioralLoops.
    by rewrite (find_unique_key cat_id String.eqb string_eqb_eq).
Qed.

Lemma getAllLoops_partition_witness :
  getAllLoops twin_data = concat (map loops (categories twin_data))
  /\ flat_map (fun c => getLoopsByCategory sample_data (cat_id c))
       (categories sample_data)
     = getAllLoops sample_data.
Proof.
  split.
  - apply (getAllLoops_partition twin_data).
  - apply (getAllLoops_partition sample_data).
    apply (bool_decide_unpack _). vm_compute. reflexivity.
Defined.

(** ** C8: lookups that match nothing *)

(** C8. A category identifier no category carries gives the empty list,
    and a loop identifier no loop carries gives [None]; both accessors
    are total functions. *)
Theorem absent_lookups (data : BehavioralLoopsData) (categoryId : string) (i : Z) :
  ((forall c, c ∈ categories data -> cat_id c <> categoryId) ->
   getLoopsByCategory data categoryId = [])
  /\ ((forall loop, loop ∈ getAllLoops data -> id loop <> i) ->
      getLoopById data i = None).
Proof.
  split; intros H.
  - unfold getLoopsByCategory, getBehavioralLoops.
    by rewrite (find_absent_key cat_id String.eqb string_eqb_eq).
  - unfold getLoopById.
    by apply (find_absent_key id Z.eqb Z.eqb_eq).
Qed.

Lemma absent_lookups_witness :
  getLoopsByCategory sample_data "no-such-category" = []
  /\ getLoopById sample_data 999 = None.
Proof.
  destruct (absent_lookups sample_data "no-such-category" 999) as [Hc Hl].
  split.
  - apply Hc. intros c Hc'. vm_compute in Hc'.
    repeat (apply elem_of_cons in Hc' as [->|Hc']; [discriminate|]).
    by apply elem_of_nil in Hc'.
  - apply Hl. intros l Hl'. vm_compute in Hl'.
    repeat (apply elem_of_cons in Hl' as [->|Hl']; [discriminate|]).
    by apply elem_of_nil in Hl'.
Defined.

(** ** C7: case-insensitive queries *)

Lemma lower_unit_idempotent (c : ascii) : lower_unit (lower_unit c) = lower_unit c.
Proof. destruct c as [[] [] [] [] [] [] [] []]; reflexivity. Qed.

(** Both searches read the query through [toLowerCase] only. *)
Lemma findLoopsByTag_lower (data : BehavioralLoopsData) (q1 q2 : string) :
  toLowerCase q1 = toLowerCase q2 ->
  findLoopsByTag data q1 = findLoopsByTag data q2.
Proof. intros H. unfold findLoopsByTag. by rewrite H. Qed.

Lemma searchLoops_lower (data : BehavioralLoopsData) (q1 q2 : string) :
  toLowerCase q1 = toLowerCase q2 ->
  searchLoops data q1 = searchLoops data q2.
Proof. intros H. unfold searchLoops. by rewrite H. Qed.

(** A tag written with the sharp s is found by the tag itself, and not by
    the same word in capitals: its capitals are STRASSE, whose lower-case
    form is strasse. *)
Example street_by_tag :
  toUpperCase strasse = code_units "STRASSE"
  /\ findLoopsByTag street_data strasse = [loop_street]
  /\ findLoopsByTag street_data "STRASSE" = [].
Proof. repeat split. Qed.

Lemma search_ignores_case_sharp_s_fails : ~ search_ignores_case street_data.
Proof.
  intros H. destruct (H strasse "STRASSE") as [Htag _]; [reflexivity|].
  vm_compute in Htag. discriminate Htag.
Qed.

(** C7 (amended). Two queries with the same lower-case form give the same
    result list with [findLoopsByTag] and the same result list with
    [searchLoops]. *)
Theorem search_case_insensitive (data : BehavioralLoopsData) (q1 q2 : string) :
  toLowerCase q1 = toLowerCase q2 ->
  findLoopsByTag data q1 = findLoopsByTag data q2
  /\ searchLoops data q1 = searchLoops data q2.
Proof.
  intros H.
  split; [by apply findLoopsByTag_lower | by apply searchLoops_lower].
Qed.

Lemma search_case_insensitive_witness :
  findLoopsByTag sample_data "TRUST" = findLoopsByTag sample_data "trust"
  /\ searchLoops sample_data "TRUST" = searchLoops sample_data "trust".
Proof.
  apply (search_case_insensitive sample_data "TRUST" "trust").
  vm_compute. reflexivity.
Defined.

(** The tag search finds tags written in either case. *)
Example trust_by_tag :
  findLoopsByTag sample_data "TRUST" = [loop_scroll; loop_gaze].
Proof. reflexivity. Qed.

(** ** C9: the per-origin counts *)

Lemma origin_total_insert_fresh (m : gmap LoopOrigin nat) o n :
  m !! o = None -> origin_total (<[o := n]> m) = (n + origin_total m)%nat.
Proof.
  intros Hm. unfold origin_total.
  rewrite map_fold_insert_L; [done | intros; lia | done].
Qed.

Lemma origin_total_lookup (m : gmap LoopOrigin nat) o n :
  m !! o = Some n -> origin_total m = (n + origin_total (delete o m))%nat.
Proof.
  intros Hm. unfold origin_total.
  rewrite (map_fold_delete_L _ _ o n m); [done | intros; lia | done].
Qed.

(** Counting one more loop raises the total by one, whether its origin
    was already counted or not. *)
Lemma origin_total_count (acc : gmap LoopOrigin nat) (loop : BehavioralLoop) :
  origin_total (count_origin acc loop) = S (origin_total acc).
Proof.
  unfold count_origin. set (o := origin (taxonomy loop)).
  destruct (acc !! o) as [n|] eqn:Ho; simpl.
  - rewrite (origin_total_lookup acc o n Ho).
    rewrite <- insert_delete_eq.
    rewrite origin_total_insert_fresh by apply lookup_delete_eq. lia.
  - rewrite origin_total_insert_fresh by done. lia.
Qed.

Lemma origin_total_fold (ls : list BehavioralLoop) (acc : gmap LoopOrigin nat) :
  origin_total (fold_left count_origin ls acc)
  = (origin_total acc + length ls)%nat.
Proof.
  revert acc. induction ls as [|l ls IH]; intros acc; simpl.
  - lia.
  - rewrite IH, origin_total_count. lia.
Qed.

(** C9. The counts of [loopsByOrigin] sum to the number of loops of
    [getAllLoops]. *)
Theorem loopsByOrigin_total (data : BehavioralLoopsData) (rnd : Q -> Q) :
  origin_total (loopsByOrigin (getStatistics data rnd))
  = length (getAllLoops data).
Proof.
  unfold getStatistics. simpl.
  change (fold_left _ (getAllLoops data) ∅)
    with (fold_left count_origin (getAllLoops data) ∅).
  rewrite origin_total_fold. unfold origin_total at 1.
  by rewrite map_fold_empty.
Qed.

Example sample_origin_total :
  origin_total (loopsByOrigin (getStatistics sample_data exact)) = 3%nat.
Proof. reflexivity. Qed.

(** ** C3: the identifier of a normalized trait *)

Lemma trait_ids_are_keys_own_id_fails : ~ trait_ids_are_keys traits_own_id.
Proof.
  intros H.
  destruct (H 0%nat "openness" {[ "id" := JStr "O"; "name" := JStr "Openness" ]})
    as (r & Hr & Hid); [reflexivity|].
  simpl in Hr. injection Hr as <-. unfold object_spread in Hid.
  rewrite (lookup_union_Some_l _ _ _ (JStr "O")) in Hid.
  - discriminate Hid.
  - reflexivity.
Qed.

(** C3 (amended). The record [getTraits] makes from a dictionary entry
    has the entry's key as its [id] when the entry's value has no [id]
    property; an [id] property of the value is kept as it is. *)
Theorem getTraits_id (traitsData : list (string * jsobject))
    (n : nat) (k : string) (trait : jsobject) :
  Object_entries traitsData !! n = Some (k, trait) ->
  exists r, getTraits traitsData !! n = Some r
    /\ (trait !! "id" = None -> r !! "id" = Some (JStr k))
    /\ (forall v, trait !! "id" = Some v -> r !! "id" = Some v).
Proof.
  intros Hn. exists (object_spread {[ "id" := JStr k ]} trait).
  split; [|split].
  - unfold getTraits. change (map ?f ?l) with (f <$> l).
    by rewrite list_lookup_fmap, Hn.
  - intros Hnone. unfold object_spread.
    rewrite lookup_union_r by done. apply lookup_singleton_eq.
  - intros v Hv. unfold object_spread. by apply lookup_union_Some_l.
Qed.

Lemma getTraits_id_witness :
  exists r, getTraits sample_traits !! 1%nat = Some r
    /\ r !! "id" = Some (JStr "grit").
Proof.
  destruct (getTraits_id sample_traits 1 "grit"
              {[ "name" := JStr "Grit"; "dimension" := JStr "conscientiousness" ]})
    as (r & Hr & Hkey & _); [reflexivity|].
  exists r. split; [exact Hr|]. apply Hkey. reflexivity.
Defined.

(** ** C6: biases without the metadata sentinel *)

(** C6. On a dictionary with a metadata sentinel and one record whose [id]
    is the empty string, [getBiases] returns nothing.  The record is an
    entry with an [id] property, so it is no sentinel, and it is dropped
    all the same: the result is not the entries less the sentinels. *)
Theorem getBiases_drops_empty_id_record :
  let record : jsobject :=
    {[ "id" := JStr EmptyString; "name" := JStr "Anchoring" ]} in
  record ∈ Object_values biases_empty_id
  /\ is_sentinel record = false
  /\ getBiases biases_empty_id = []
  /\ ~ biases_less_sentinels biases_empty_id.
Proof.
  repeat split.
  - right. left.
  - intros [H _]. vm_compute in H. discriminate H.
Qed.

Lemma getBiases_filter_sentinels (biasesData : list (string * jsobject)) :
  ids_truthy biasesData ->
  getBiases biasesData
  = List.filter (fun item => negb (is_sentinel item)) (Object_values biasesData).
Proof.
  intros Hid. unfold getBiases. apply filter_ext_in. intros item Hin.
  apply list_elem_of_In in Hin. unfold is_sentinel.
  destruct (item !! "id") as [v|] eqn:E; [|done].
  by apply (Hid item v).
Qed.

(** On a dictionary where every [id] that is present is truthy, [getBiases]
    returns as many records as the dictionary has entries less the
    sentinel entries; every entry that is not a sentinel is in the result
    and no sentinel is. *)
Theorem getBiases_drops_sentinels (biasesData : list (string * jsobject)) :
  ids_truthy biasesData -> biases_less_sentinels biasesData.
Proof.
  intros Hid. pose proof (getBiases_filter_sentinels biasesData Hid) as Heq.
  split; [|split].
  - rewrite Heq.
    pose proof (List.filter_length is_sentinel (Object_values biasesData)) as Hlen.
    unfold Object_values in *. rewrite length_map in Hlen. lia.
  - intros item Hin Hs. rewrite Heq. apply list_elem_of_In, filter_In.
    split; [by apply list_elem_of_In | by rewrite Hs].
  - intros item Hin Hs. rewrite Heq. intros Hres.
    apply list_elem_of_In, filter_In in Hres as [_ Hres].
    by rewrite Hs in Hres.
Qed.

Example sample_getBiases : length (getBiases sample_biases) = 2%nat.
Proof. reflexivity. Qed.

Lemma getBiases_drops_sentinels_witness : biases_less_sentinels sample_biases.
Proof.
  apply (getBiases_drops_sentinels sample_biases).
  intros item v Hin Hv. unfold sample_biases, Object_values in Hin.
  simpl in Hin.
  repeat (apply elem_of_cons in Hin as [->|Hin]);
    try (vm_compute in Hv; injection Hv as <-; reflexivity);
    try (vm_compute in Hv; discriminate Hv).
  by apply elem_of_nil in Hin.
Defined.

(** ** C5 and C10: the average intervention difficulty *)

Lemma array_length_nonzero {A} (l : list A) :
  l <> [] -> Qeq_bool (array_length l) 0 = false.
Proof. destruct l as [|x l]; [done|]. intros _. reflexivity. Qed.

Lemma array_length_positive {A} (l : list A) :
  l <> [] -> (0 < array_length l)%Q.
Proof.
  destruct l as [|x l]; [done|]. intros _. unfold array_length.
  change 0%Q with (inject_Z 0). rewrite <- Zlt_Qlt. simpl length. lia.
Qed.

(** The formula of [getStatistics] on the running sum and the length. *)
Lemma average_formula (data : BehavioralLoopsData) (rnd : Q -> Q) :
  averageInterventionDifficulty (getStatistics data rnd)
  = num_div rnd
      (Math_round
         (num_mul rnd
            (num_div rnd (difficulty_sum rnd (getAllLoops data))
               (Fin (array_length (getAllLoops data))))
            (Fin 10%Q)))
      (Fin 10%Q).
Proof. reflexivity. Qed.

(** With no loop the mean is [0 / 0]. *)
Lemma average_of_none (data : BehavioralLoopsData) (rnd : Q -> Q) :
  getAllLoops data = [] ->
  averageInterventionDifficulty (getStatistics data rnd) = NaN.
Proof. intros H. rewrite average_formula, H. reflexivity. Qed.

Lemma positive_not_zero (y : Q) :
  (0 < y)%Q -> Qeq_bool y 0 = false /\ Qle_bool 0 y = true.
Proof.
  intros Hy. split.
  - destruct (Qeq_bool y 0) eqn:E; [|done].
    apply Qeq_bool_iff in E. rewrite E in Hy. by apply Qlt_irrefl in Hy.
  - apply Qle_bool_iff. by apply Qlt_le_weak.
Qed.

(** No operation of the formula makes NaN out of numbers, as long as no
    divisor is zero and no infinity meets its opposite. *)
Section NeverNaN.
Variable rnd : Q -> Q.

Lemma to_number_not_nan (q : Q) : to_number rnd q <> NaN.
Proof. unfold to_number. by repeat case_match. Qed.

Lemma num_add_not_nan (a d : number) :
  a <> NaN -> is_finite d -> num_add rnd a d <> NaN.
Proof.
  destruct a, d; simpl; try done. intros _ _. apply to_number_not_nan.
Qed.

Lemma sum_not_nan (ls : list BehavioralLoop) :
  forall acc : number,
    acc <> NaN ->
    Forall (fun loop => is_finite (difficulty (intervention loop))) ls ->
    fold_left (fun sum loop => num_add rnd sum (difficulty (intervention loop)))
      ls acc <> NaN.
Proof.
  induction ls as [|l ls IH]; intros acc Hacc Hall; [done|].
  apply list.Forall_cons in Hall as [Hl Hall]. simpl.
  apply IH; [by apply num_add_not_nan | done].
Qed.

Lemma num_div_not_nan (a : number) (y : Q) :
  a <> NaN -> (0 < y)%Q -> num_div rnd a (Fin y) <> NaN.
Proof.
  intros Ha Hy. destruct (positive_not_zero y Hy) as [Hz Hp].
  destruct a; simpl; rewrite ?Hz, ?Hp; try done. apply to_number_not_nan.
Qed.

Lemma num_mul_not_nan (a : number) (y : Q) :
  a <> NaN -> (0 < y)%Q -> num_mul rnd a (Fin y) <> NaN.
Proof.
  intros Ha Hy. destruct (positive_not_zero y Hy) as [Hz Hp].
  destruct a; simpl; rewrite ?Hz, ?Hp; try done. apply to_number_not_nan.
Qed.

Lemma Math_round_not_nan (a : number) : a <> NaN -> Math_round a <> NaN.
Proof. by destruct a. Qed.
End NeverNaN.

(** C10. The mean divides by the length of the flattened list without a
    guard.  With at least one loop the divisor is not zero, and the
    result is a number (not NaN) when every difficulty is finite; with no
    loop the result is NaN. *)
Theorem average_division (data : BehavioralLoopsData) (rnd : Q -> Q) :
  (getAllLoops data <> [] ->
   Qeq_bool (array_length (getAllLoops data)) 0 = false
   /\ (Forall (fun loop => is_finite (difficulty (intervention loop)))
         (getAllLoops data) ->
       averageInterventionDifficulty (getStatistics data rnd) <> NaN))
  /\ (getAllLoops data = [] ->
      averageInterventionDifficulty (getStatistics data rnd) = NaN).
Proof.
  split.
  - intros H. split; [by apply array_length_nonzero|].
    intros Hfin. rewrite average_formula.
    apply num_div_not_nan; [|done].
    apply Math_round_not_nan, num_mul_not_nan; [|done].
    apply num_div_not_nan; [|by apply array_length_positive].
    by apply sum_not_nan.
  - apply average_of_none.
Qed.

Lemma average_division_witness :
  averageInterventionDifficulty (getStatistics huge_data exact) <> NaN
  /\ averageInterventionDifficulty (getStatistics empty_data exact) = NaN.
Proof.
  split.
  - apply (average_division huge_data exact); [discriminate|].
    repeat constructor.
  - apply (average_division empty_data exact). reflexivity.
Defined.

(** A sum beyond the largest finite value is an infinity, and so is the
    average. *)
Example huge_average :
  averageInterventionDifficulty (getStatistics huge_data exact) = PInf.
Proof. vm_compute. reflexivity. Qed.

(** With no loop every difficulty is rated, and the average is NaN. *)
Lemma average_is_rated_empty_fails : ~ average_is_rated exact empty_data.
Proof. intros H. apply H. constructor. Qed.

Lemma max_value_large : (inject_Z (2 ^ 53) <= max_value)%Q.
Proof. unfold max_value. rewrite <- Zle_Qle. by vm_compute. Qed.

Section Rounding.
Variable rnd : Q -> Q.

(** Rounding to nearest is monotone and keeps the integers up to 2^53,
    which the number format represents exactly. *)
Hypothesis rnd_monotone : forall a b : Q, (a <= b)%Q -> (rnd a <= rnd b)%Q.
Hypothesis rnd_integer :
  forall z : Z, Z.abs z <= 2 ^ 53 -> (rnd (inject_Z z) == inject_Z z)%Q.

Lemma rnd_lower (z : Z) (q : Q) :
  Z.abs z <= 2 ^ 53 -> (inject_Z z <= q)%Q -> (inject_Z z <= rnd q)%Q.
Proof.
  intros Hz Hq. rewrite <- (rnd_integer z Hz). by apply rnd_monotone.
Qed.

Lemma rnd_upper (z : Z) (q : Q) :
  Z.abs z <= 2 ^ 53 -> (q <= inject_Z z)%Q -> (rnd q <= inject_Z z)%Q.
Proof.
  intros Hz Hq. rewrite <- (rnd_integer z Hz). by apply rnd_monotone.
Qed.

(** An exact result between two integers up to 2^53 stays between them
    when rounded, and does not overflow. *)
Lemma to_number_within (z1 z2 : Z) (q : Q) :
  Z.abs z1 <= 2 ^ 53 -> Z.abs z2 <= 2 ^ 53 ->
  (inject_Z z1 <= q)%Q -> (q <= inject_Z z2)%Q ->
  to_number rnd q = Fin (rnd q)
  /\ (inject_Z z1 <= rnd q)%Q /\ (rnd q <= inject_Z z2)%Q.
Proof.
  intros Hz1 Hz2 Hlo Hhi.
  pose proof (rnd_lower z1 q Hz1 Hlo) as Hrlo.
  pose proof (rnd_upper z2 q Hz2 Hhi) as Hrhi.
  split; [|done]. unfold to_number.
  assert (Qle_bool (Qabs (rnd q)) max_value = true) as ->; [|done].
  apply Qle_bool_iff, Qabs_Qle_condition.
  pose proof max_value_large as Hmax.
  assert (inject_Z (- 2 ^ 53) <= inject_Z z1)%Q by (rewrite <- Zle_Qle; lia).
  assert (inject_Z z2 <= inject_Z (2 ^ 53))%Q by (rewrite <- Zle_Qle; lia).
  assert (inject_Z (- 2 ^ 53) = - inject_Z (2 ^ 53))%Q as Hopp
    by apply inject_Z_opp.
  split.
  - apply Qle_trans with (inject_Z (- 2 ^ 53)); [|by eapply Qle_trans].
    rewrite Hopp. by apply Qopp_le_compat.
  - apply Qle_trans with (inject_Z z2); [done|]. by eapply Qle_trans.
Qed.

(** The running sum of [n] rated difficulties stays between [n] and
    [10 n]: these integers are exact, so no rounding leaves the
    interval. *)
Lemma running_sum_bounds (ls : list BehavioralLoop) :
  forall (k : Z) (s : Q),
    0 <= k -> 10 * (k + Z.of_nat (length ls)) <= 2 ^ 53 ->
    (inject_Z k <= s /\ s <= inject_Z (10 * k))%Q ->
    difficulties_rated ls ->
    exists total : Q,
      fold_left
        (fun sum loop => num_add rnd sum (difficulty (intervention loop)))
        ls (Fin s) = Fin total
      /\ (inject_Z (k + Z.of_nat (length ls)) <= total
          /\ total <= inject_Z (10 * (k + Z.of_nat (length ls))))%Q.
Proof.
  induction ls as [|l ls IH]; intros k s Hk Hlen [Hlo Hhi] Hall.
  - exists s. simpl. by rewrite Z.add_0_r.
  - apply list.Forall_cons in Hall as [Hl Hall].
    cbn [fold_left length] in *. rewrite Nat2Z.inj_succ in Hlen |- *.
    replace (k + Z.succ (Z.of_nat (length ls)))
      with (k + 1 + Z.of_nat (length ls)) by lia.
    destruct (difficulty (intervention l)) as [d| | |]; try done.
    destruct Hl as [Hl1 Hl10]. cbn [num_add].
    destruct (to_number_within (k + 1) (10 * (k + 1)) (s + d))
      as (-> & Hlo' & Hhi'); [lia | lia | | |].
    + rewrite inject_Z_plus. change (inject_Z 1) with 1%Q. lra.
    + replace (10 * (k + 1)) with (10 * k + 10) by lia.
      rewrite inject_Z_plus. change (inject_Z 10) with 10%Q. lra.
    + apply IH; [lia | lia | done | done].
Qed.

Lemma difficulty_sum_bounds (ls : list BehavioralLoop) :
  Z.of_nat (length ls) <= max_array_length ->
  difficulties_rated ls ->
  exists s : Q,
    difficulty_sum rnd ls = Fin s
    /\ (array_length ls <= s /\ s <= 10 * array_length ls)%Q.
Proof.
  intros Hlen Hall. unfold max_array_length in Hlen.
  destruct (running_sum_bounds ls 0 0%Q) as (s & Hs & Hlo & Hhi);
    [lia | lia | split; apply Qle_refl | done |].
  exists s. split; [done|]. rewrite Z.add_0_l in Hlo, Hhi.
  unfold array_length. split; [done|].
  rewrite inject_Z_mult in Hhi. by change (inject_Z 10) with 10%Q in Hhi.
Qed.

(** C5 (amended). When every difficulty is a rating from 1 to 10 and
    there is at least one loop (in an array, so at most 2^32 - 1 of
    them), the average of [getStatistics] is a number from 1 to 10. *)
Theorem average_in_range (data : BehavioralLoopsData) :
  getAllLoops data <> [] ->
  Z.of_nat (length (getAllLoops data)) <= max_array_length ->
  difficulties_rated (getAllLoops data) ->
  in_range 1 10 (averageInterventionDifficulty (getStatistics data rnd)).
Proof.
  intros Hne Hlen Hall. rewrite average_formula.
  destruct (difficulty_sum_bounds _ Hlen Hall) as (s & -> & Hlo & Hhi).
  pose proof (array_length_positive _ Hne) as Hpos.
  pose proof (array_length_nonzero _ Hne) as Hnz.
  set (n := array_length (getAllLoops data)) in *.
  (* the mean *)
  cbn [num_div]. rewrite Hnz.
  destruct (to_number_within 1 10 (s / n)) as (-> & Hm1 & Hm10);
    [lia | lia | | |].
  { change (inject_Z 1) with 1%Q. apply Qle_shift_div_l; [done | lra]. }
  { change (inject_Z 10) with 10%Q. apply Qle_shift_div_r; [done | lra]. }
  change (inject_Z 1) with 1%Q in Hm1. change (inject_Z 10) with 10%Q in Hm10.
  set (m := rnd (s / n)) in *.
  (* scaled by ten *)
  cbn [num_mul].
  destruct (to_number_within 10 100 (m * 10)) as (-> & Hs1 & Hs2);
    [lia | lia | | |].
  { change (inject_Z 10) with 10%Q. lra. }
  { change (inject_Z 100) with 100%Q. lra. }
  change (inject_Z 10) with 10%Q in Hs1.
  change (inject_Z 100) with 100%Q in Hs2.
  set (t := rnd (m * 10)) in *.
  (* rounded to an integer *)
  cbn [Math_round].
  assert (10 <= Qfloor (t + (1 # 2)) <= 100) as [Hr1 Hr2].
  { split.
    - rewrite <- (Qfloor_Z 10). apply Qfloor_resp_le.
      change (inject_Z 10) with 10%Q. lra.
    - change 100 with (Qfloor (201 # 2)). apply Qfloor_resp_le. lra. }
  set (r := Qfloor (t + (1 # 2))) in *.
  (* and scaled back *)
  cbn [num_div]. change (Qeq_bool 10 0) with false. cbv iota.
  rewrite Zle_Qle in Hr1, Hr2.
  change (inject_Z 10) with 10%Q in Hr1.
  change (inject_Z 100) with 100%Q in Hr2.
  destruct (to_number_within 1 10 (inject_Z r / 10)) as (-> & Hf1 & Hf2);
    [lia | lia | | |].
  { change (inject_Z 1) with 1%Q. apply Qle_shift_div_l; lra. }
  { change (inject_Z 10) with 10%Q. apply Qle_shift_div_r; lra. }
  done.
Qed.
End Rounding.

Lemma chop_monotone (a b : Q) : (a <= b)%Q -> (chop a <= chop b)%Q.
Proof.
  intros H. unfold chop, Qle. cbn [Qnum Qden].
  apply Z.mul_le_mono_nonneg_r; [lia|]. apply Qfloor_resp_le. lra.
Qed.

Lemma chop_integer (z : Z) :
  Z.abs z <= 2 ^ 53 -> (chop (inject_Z z) == inject_Z z)%Q.
Proof.
  intros _. unfold chop.
  change 1024%Q with (inject_Z 1024). rewrite <- inject_Z_mult, Qfloor_Z.
  unfold Qeq. cbn [Qnum Qden inject_Z]. lia.
Qed.

Example sample_average_chopped :
  averageInterventionDifficulty (getStatistics sample_data chop) = Fin (7168 # 1024).
Proof. reflexivity. Qed.

Lemma average_in_range_witness :
  in_range 1 10 (averageInterventionDifficulty (getStatistics sample_data chop)).
Proof.
  apply (average_in_range chop chop_monotone chop_integer sample_data).
  - rewrite sample_flat. discriminate.
  - vm_compute. discriminate.
  - rewrite sample_flat. repeat constructor; vm_compute; discriminate.
Defined.

(** * Further properties of the accessors *)

(** ** First match: [getLoopById] and [getLoopsByCategory] *)

(** [find] returns an element exactly when the array splits around it
    with no earlier element accepted. *)
Lemma find_first_match {A} (f : A -> bool) (l : list A) (x : A) :
  List.find f l = Some x
  <-> exists pre post,
        l = pre ++ x :: post /\ f x = true /\ forall y, y ∈ pre -> f y = false.
Proof.
  split.
  - induction l as [|y l IH]; [done|]. simpl. destruct (f y) eqn:E.
    + intros [= ->]. exists [], l. repeat split; [done|].
      intros z Hz. by apply elem_of_nil in Hz.
    + intros H. destruct (IH H) as (pre & post & -> & Hx & Hpre).
      exists (y :: pre), post. repeat split; [done|].
      intros z [->|Hz]%elem_of_cons; [done | by apply Hpre].
  - intros (pre & post & -> & Hx & Hpre).
    induction pre as [|y pre IH]; simpl.
    + by rewrite Hx.
    + rewrite (Hpre y) by left. apply IH. intros z Hz. apply Hpre. by right.
Qed.

(** X1. [getLoopById] returns the first loop of the flattened list that has
    the identifier, whether or not identifiers are unique. *)
Theorem getLoopById_first_match (data : BehavioralLoopsData) (i : Z)
    (loop : BehavioralLoop) :
  getLoopById data i = Some loop
  <-> exists pre post,
        getAllLoops data = pre ++ loop :: post
        /\ id loop = i /\ forall x, x ∈ pre -> id x <> i.
Proof.
  unfold getLoopById. rewrite find_first_match. split.
  - intros (pre & post & Hsplit & Hid & Hpre). exists pre, post.
    repeat split; [done | by apply Z.eqb_eq |].
    intros x Hx. apply Z.eqb_neq. by apply Hpre.
  - intros (pre & post & Hsplit & Hid & Hpre). exists pre, post.
    repeat split; [done | by apply Z.eqb_eq |].
    intros x Hx. apply Z.eqb_neq. by apply Hpre.
Qed.

Lemma getLoopById_first_match_witness :
  exists pre post,
    getAllLoops sample_data = pre ++ loop_habit :: post
    /\ id loop_habit = 2 /\ forall x, x ∈ pre -> id x <> 2.
Proof.
  apply (getLoopById_first_match sample_data 2 loop_habit). reflexivity.
Defined.

(** X3. [getLoopsByCategory] returns the loops of the first category that has
    the identifier. *)
Theorem getLoopsByCategory_first_match (data : BehavioralLoopsData)
    (pre post : list BehavioralCategory) (c : BehavioralCategory) :
  categories data = pre ++ c :: post ->
  (forall x, x ∈ pre -> cat_id x <> cat_id c) ->
  getLoopsByCategory data (cat_id c) = loops c.
Proof.
  intros Hsplit Hpre. unfold getLoopsByCategory, getBehavioralLoops.
  assert (List.find (fun x => String.eqb (cat_id x) (cat_id c)) (categories data)
          = Some c) as ->; [|done].
  apply find_first_match. exists pre, post. repeat split; [done | | ].
  - by apply String.eqb_eq.
  - intros x Hx. apply String.eqb_neq. by apply Hpre.
Qed.

Lemma getLoopsByCategory_first_match_witness :
  getLoopsByCategory sample_data "ocular-gaze" = [loop_gaze].
Proof.
  apply (getLoopsByCategory_first_match sample_data
           [sample_category "digital-cognitive" 1 [loop_scroll; loop_habit]] []
           (sample_category "ocular-gaze" 2 [loop_gaze])).
  - reflexivity.
  - intros x Hx. apply list_elem_of_singleton in Hx. subst x.
    vm_compute. discriminate.
Defined.

Lemma flat_map_split {A B} (f : A -> list B) (l1 l2 : list A) (x : A) :
  flat_map f (l1 ++ x :: l2) = flat_map f l1 ++ f x ++ flat_map f l2.
Proof. by rewrite flat_map_app. Qed.

(** X4. Whatever the identifier, the loops [getLoopsByCategory] returns are a
    run of consecutive loops of [getAllLoops], in the same order. *)
Theorem getLoopsByCategory_segment (data : BehavioralLoopsData)
    (categoryId : string) :
  exists pre post,
    getAllLoops data = pre ++ getLoopsByCategory data categoryId ++ post.
Proof.
  unfold getLoopsByCategory, getAllLoops, getBehavioralLoops.
  destruct (List.find _ (categories data)) as [c|] eqn:E.
  - apply find_first_match in E as (l1 & l2 & -> & _ & _).
    exists (flat_map (fun cat => loops cat) l1),
           (flat_map (fun cat => loops cat) l2).
    apply flat_map_split.
  - by exists [], (flat_map (fun cat => loops cat) (categories data)).
Qed.

(** ** Origins: [findLoopsByOrigin] and the counts of [getStatistics] *)

(** X5. Every loop has exactly one of the five origins, so the five searches
    by origin split the flattened list: their sizes add up to its size. *)
Theorem findLoopsByOrigin_partition (data : BehavioralLoopsData) :
  foldr (fun o n => (length (findLoopsByOrigin data o) + n)%nat) 0%nat all_origins
  = length (getAllLoops data).
Proof.
  unfold findLoopsByOrigin. simpl.
  induction (getAllLoops data) as [|l ls IH]; [done|]. simpl.
  destruct (origin (taxonomy l)); simpl; lia.
Qed.

(** The count kept for an origin, zero when the record has no entry. *)
Lemma count_origin_lookup (acc : gmap LoopOrigin nat) (loop : BehavioralLoop)
    (o : LoopOrigin) :
  default 0%nat (count_origin acc loop !! o)
  = (default 0%nat (acc !! o)
     + if bool_decide (origin (taxonomy loop) = o) then 1 else 0)%nat.
Proof.
  unfold count_origin. case_bool_decide as E.
  - rewrite E, lookup_insert_eq. simpl. lia.
  - rewrite lookup_insert_ne by done. lia.
Qed.

(** The reducer never stores a zero. *)
Lemma count_origin_positive (acc : gmap LoopOrigin nat) (loop : BehavioralLoop) :
  (forall o n, acc !! o = Some n -> (0 < n)%nat) ->
  forall o n, count_origin acc loop !! o = Some n -> (0 < n)%nat.
Proof.
  intros Hacc o n. unfold count_origin.
  destruct (decide (origin (taxonomy loop) = o)) as [->|Hne].
  - rewrite lookup_insert_eq. intros [= <-]. lia.
  - rewrite lookup_insert_ne by done. apply Hacc.
Qed.

Lemma fold_count_origin (ls : list BehavioralLoop) :
  forall acc : gmap LoopOrigin nat,
    (forall o n, acc !! o = Some n -> (0 < n)%nat) ->
    (forall o n, fold_left count_origin ls acc !! o = Some n -> (0 < n)%nat)
    /\ forall o,
         default 0%nat (fold_left count_origin ls acc !! o)
         = (default 0%nat (acc !! o)
            + length (List.filter
                        (fun loop => bool_decide (origin (taxonomy loop) = o))
                        ls))%nat.
Proof.
  induction ls as [|l ls IH]; intros acc Hacc; simpl.
  - split; [done | intros o; lia].
  - destruct (IH (count_origin acc l) (count_origin_positive acc l Hacc))
      as [Hpos Hcnt].
    split; [done|]. intros o. rewrite Hcnt, count_origin_lookup.
    case_bool_decide; simpl; lia.
Qed.

(** X6. The entry of [loopsByOrigin] for an origin is the number of loops
    [findLoopsByOrigin] returns for it; an origin without a loop has no
    entry at all, not a zero. *)
Theorem loopsByOrigin_lookup (data : BehavioralLoopsData) (rnd : Q -> Q)
    (o : LoopOrigin) :
  loopsByOrigin (getStatistics data rnd) !! o
  = match length (findLoopsByOrigin data o) with
    | O => None
    | S n => Some (S n)
    end.
Proof.
  unfold getStatistics, findLoopsByOrigin. simpl.
  change (fold_left _ (getAllLoops data) ∅)
    with (fold_left count_origin (getAllLoops data) ∅).
  destruct (fold_count_origin (getAllLoops data) ∅) as [Hpos Hcnt].
  { intros o' n. by rewrite lookup_empty. }
  specialize (Hcnt o). rewrite lookup_empty in Hcnt. simpl in Hcnt.
  destruct (fold_left count_origin (getAllLoops data) ∅ !! o) as [n|] eqn:E.
  - simpl in Hcnt. apply Hpos in E. rewrite <- Hcnt.
    destruct n; [lia | done].
  - simpl in Hcnt. by rewrite <- Hcnt.
Qed.

(** ** Substring search *)

Lemma prefix_append (sub s : string) :
  String.prefix sub s = true <-> exists post, s = String.append sub post.
Proof.
  revert s. induction sub as [|a sub IH]; intros [|b s]; simpl.
  - split; [by exists EmptyString | done].
  - split; [by exists (String b s) | done].
  - split; [done | intros [post [=]]].
  - destruct (ascii_dec a b) as [->|Hne].
    + rewrite IH. split; intros [post Hpost]; exists post.
      * by subst.
      * by injection Hpost.
    + split; [done | intros [post [= ? ?]]; done].
Qed.

(** [includes] holds exactly when the string splits around the searched
    one. *)
Lemma includes_append (s sub : string) :
  includes s sub = true
  <-> exists pre post, s = String.append pre (String.append sub post).
Proof.
  induction s as [|c s IH].
  - cbn [includes]. rewrite orb_false_r, prefix_append. split.
    + intros [post Hpost]. by exists EmptyString, post.
    + intros ([|? ?] & post & H); [by exists post | done].
  - cbn [includes]. rewrite orb_true_iff, IH, prefix_append. split.
    + intros [[post Hpost] | (pre & post & ->)].
      * by exists EmptyString, post.
      * by exists (String c pre), post.
    + intros ([|c' pre] & post & H).
      * left. by exists post.
      * right. injection H as -> ->. by exists pre, post.
Qed.

Lemma append_cons (x : ascii) (a b : string) :
  String.append (String x a) b = String x (String.append a b).
Proof. reflexivity. Qed.

Lemma append_nil (b : string) : String.append EmptyString b = b.
Proof. reflexivity. Qed.

Lemma append_assoc (a b c : string) :
  String.append (String.append a b) c = String.append a (String.append b c).
Proof.
  induction a as [|x a IH]; [done|]. by rewrite !append_cons, IH.
Qed.

Lemma append_empty (a : string) : String.append a EmptyString = a.
Proof.
  induction a as [|x a IH]; [done|]. by rewrite append_cons, IH.
Qed.

Lemma includes_refl (s : string) : includes s s = true.
Proof.
  apply includes_append. exists EmptyString, EmptyString.
  by rewrite append_empty.
Qed.

Lemma includes_empty (s : string) : includes s EmptyString = true.
Proof. apply includes_append. by exists EmptyString, s. Qed.

Lemma includes_trans (s a b : string) :
  includes s a = true -> includes a b = true -> includes s b = true.
Proof.
  rewrite !includes_append.
  intros (p1 & q1 & ->) (p2 & q2 & ->).
  exists (String.append p1 p2), (String.append q2 q1).
  by rewrite !append_assoc.
Qed.

Lemma toLowerCase_idempotent (s : string) :
  toLowerCase (toLowerCase s) = toLowerCase s.
Proof.
  induction s as [|c s IH]; simpl; [done|].
  by rewrite lower_unit_idempotent, IH.
Qed.

(** ** Queries: [searchLoops] and [findLoopsByTag] *)

(** X7. The empty query matches every name: [searchLoops] returns the whole
    flattened list. *)
Theorem searchLoops_empty_query (data : BehavioralLoopsData) :
  searchLoops data EmptyString = getAllLoops data.
Proof.
  unfold searchLoops. simpl.
  induction (getAllLoops data) as [|l ls IH]; [done|]. simpl.
  by rewrite includes_empty, IH.
Qed.

(** X8. The empty tag matches every tag: [findLoopsByTag] returns the loops
    that carry at least one tag, and leaves out those without any. *)
Theorem findLoopsByTag_empty_tag (data : BehavioralLoopsData) :
  findLoopsByTag data EmptyString = List.filter has_tags (getAllLoops data).
Proof.
  unfold findLoopsByTag. apply filter_ext. intros loop. unfold has_tags.
  destruct (tags (meta loop)) as [|t ts]; [done|]. simpl.
  by rewrite includes_empty.
Qed.

(** X9. A loop that carries a tag is found by every query whose lower-case
    form is that of the tag; the tag itself is such a query. *)
Theorem findLoopsByTag_own_tag (data : BehavioralLoopsData)
    (loop : BehavioralLoop) (t q : string) :
  loop ∈ getAllLoops data ->
  t ∈ tags (meta loop) ->
  toLowerCase t = toLowerCase q ->
  loop ∈ findLoopsByTag data q.
Proof.
  intros Hloop Ht Hq. unfold findLoopsByTag.
  apply list_elem_of_In, filter_In. split; [by apply list_elem_of_In|].
  apply existsb_exists. exists t. split; [by apply list_elem_of_In|].
  rewrite Hq. apply includes_refl.
Qed.

Lemma findLoopsByTag_own_tag_witness :
  loop_gaze ∈ findLoopsByTag sample_data "Eye Contact"
  /\ loop_street ∈ findLoopsByTag street_data strasse.
Proof.
  split.
  - apply (findLoopsByTag_own_tag sample_data loop_gaze "eye contact"
             "Eye Contact").
    + rewrite sample_flat. do 2 right. left.
    + left.
    + vm_compute. reflexivity.
  - apply (findLoopsByTag_own_tag street_data loop_street strasse strasse).
    + left.
    + left.
    + reflexivity.
Defined.

(** X10. A query that contains another finds no more: when the lower-case
    form of one query occurs inside the lower-case form of another, every
    loop the longer one finds is found by the shorter one, with
    [searchLoops] and with [findLoopsByTag]. *)
Theorem longer_query_narrows (data : BehavioralLoopsData) (long short : string)
    (loop : BehavioralLoop) :
  includes (toLowerCase long) (toLowerCase short) = true ->
  (loop ∈ searchLoops data long -> loop ∈ searchLoops data short)
  /\ (loop ∈ findLoopsByTag data long -> loop ∈ findLoopsByTag data short).
Proof.
  intros H.
  assert (forall s, includes s (toLowerCase long) = true ->
                    includes s (toLowerCase short) = true) as Hweaken.
  { intros s Hs. by apply (includes_trans s (toLowerCase long)). }
  unfold searchLoops, findLoopsByTag. split.
  - rewrite !list_elem_of_In, !filter_In. intros [Hin Hm].
    split; [done|]. rewrite !orb_true_iff in Hm |- *.
    destruct Hm as [[Hm|Hm]|Hm]; auto.
  - rewrite !list_elem_of_In, !filter_In. intros [Hin Hm].
    split; [done|]. apply existsb_exists in Hm as (t & Ht & Hm).
    apply existsb_exists. exists t. auto.
Qed.

Lemma longer_query_narrows_witness :
  (loop_scroll ∈ searchLoops sample_data "Infinite Scroll" ->
   loop_scroll ∈ searchLoops sample_data "SCROLL")
  /\ (loop_scroll ∈ findLoopsByTag sample_data "trust" ->
      loop_scroll ∈ findLoopsByTag sample_data "rus").
Proof.
  split.
  - apply (longer_query_narrows sample_data "Infinite Scroll" "SCROLL" loop_scroll).
    reflexivity.
  - apply (longer_query_narrows sample_data "trust" "rus" loop_scroll).
    reflexivity.
Defined.

(** X11. Lower-casing a query before the call changes no result. *)
Theorem lowered_query_same (data : BehavioralLoopsData) (q : string) :
  findLoopsByTag data (toLowerCase q) = findLoopsByTag data q
  /\ searchLoops data (toLowerCase q) = searchLoops data q.
Proof.
  split.
  - apply findLoopsByTag_lower, toLowerCase_idempotent.
  - apply searchLoops_lower, toLowerCase_idempotent.
Qed.

(** ** Emotions, biases and traits *)

(** X12. [getEmotions] lists the primary emotions, then the secondary, then
    the tertiary ones; a level that is missing adds nothing. *)
Theorem getEmotions_layout (data : EmotionsData) :
  let P := or_empty (primary data) in
  let S := or_empty (secondary data) in
  let T := or_empty (tertiary data) in
  length (getEmotions data) = (length P + length S + length T)%nat
  /\ (forall i, (i < length P)%nat -> getEmotions data !! i = P !! i)
  /\ (forall i, (i < length S)%nat ->
        getEmotions data !! (length P + i)%nat = S !! i)
  /\ (forall i, getEmotions data !! (length P + length S + i)%nat = T !! i).
Proof.
  intros P S T. unfold getEmotions. fold P S T. repeat split.
  - rewrite !length_app. lia.
  - intros i Hi. by rewrite lookup_app_l.
  - intros i Hi. rewrite lookup_app_r by lia.
    replace (length P + i - length P)%nat with i by lia.
    by rewrite lookup_app_l.
  - intros i. rewrite lookup_app_r by lia. rewrite lookup_app_r by lia.
    f_equal. lia.
Qed.

Lemma getEmotions_layout_witness :
  getEmotions sample_emotions !! 2%nat
  = Some (sample_emotion "relief" secondary_level).
Proof.
  destruct (getEmotions_layout sample_emotions) as (_ & _ & Hsecond & _).
  apply (Hsecond 1%nat). simpl. lia.
Defined.

Lemma sentinel_not_truthy (item : jsobject) :
  is_sentinel item = true -> ToBoolean (item !! "id") = false.
Proof. unfold is_sentinel. by destruct (item !! "id"). Qed.

(** X13. Whatever the dictionary holds, [getBiases] returns none of its
    sentinels: each returned item is an entry with a truthy [id], and the
    result is shorter than the dictionary by at least the number of
    sentinels. *)
Theorem getBiases_no_sentinel (biasesData : list (string * jsobject)) :
  (forall item, item ∈ getBiases biasesData ->
     item ∈ Object_values biasesData
     /\ is_sentinel item = false
     /\ ToBoolean (item !! "id") = true)
  /\ (length (getBiases biasesData)
      + length (List.filter is_sentinel (Object_values biasesData))
      <= length biasesData)%nat.
Proof.
  split.
  - intros item Hin. unfold getBiases in Hin.
    apply list_elem_of_In, filter_In in Hin as [Hin Hid].
    split; [by apply list_elem_of_In|]. split; [|done].
    unfold is_sentinel. by destruct (item !! "id").
  - unfold getBiases, Object_values.
    induction biasesData as [|[k item] d IH]; [done|].
    cbn [map snd List.filter].
    pose proof (sentinel_not_truthy item) as Hs.
    destruct (is_sentinel item), (ToBoolean (item !! "id"));
      cbn [length]; first [lia | by specialize (Hs eq_refl)].
Qed.

Lemma getBiases_no_sentinel_witness :
  let item : jsobject := {[ "id" := JStr "halo"; "name" := JStr "Halo effect" ]} in
  item ∈ Object_values sample_biases
  /\ is_sentinel item = false
  /\ ToBoolean (item !! "id") = true.
Proof.
  apply (getBiases_no_sentinel sample_biases). vm_compute. right. left.
Defined.

(** X14. [getTraits] makes one record per entry of the dictionary, in order,
    and drops none; each record has an [id], and every other property is
    the one of the entry's value. *)
Theorem getTraits_keeps_entries (traitsData : list (string * jsobject)) :
  length (getTraits traitsData) = length traitsData
  /\ forall (n : nat) (k : string) (trait : jsobject),
       Object_entries traitsData !! n = Some (k, trait) ->
       exists r, getTraits traitsData !! n = Some r
         /\ is_Some (r !! "id")
         /\ forall p, p <> "id" -> r !! p = trait !! p.
Proof.
  split.
  - unfold getTraits, Object_entries. apply length_map.
  - intros n k trait Hn. exists (object_spread {[ "id" := JStr k ]} trait).
    split; [|split].
    + unfold getTraits. change (map ?f ?l) with (f <$> l).
      by rewrite list_lookup_fmap, Hn.
    + unfold object_spread. rewrite lookup_union.
      destruct (trait !! "id"); rewrite lookup_singleton_eq; by eexists.
    + intros p Hp. unfold object_spread.
      apply lookup_union_l. by apply lookup_singleton_ne.
Qed.

Lemma getTraits_keeps_entries_witness :
  exists r, getTraits sample_traits !! 1%nat = Some r
    /\ is_Some (r !! "id")
    /\ forall p, p <> "id" -> r !! p
         = ({[ "name" := JStr "Grit"; "dimension" := JStr "conscientiousness" ]}
            : jsobject) !! p.
Proof.
  destruct (getTraits_keeps_entries sample_traits) as [_ H].
  apply (H 1%nat "grit"). reflexivity.
Defined.

(** ** The average of equal ratings *)

Lemma Qfloor_half (z : Z) : Qfloor (inject_Z z + (1 # 2)) = z.
Proof.
  unfold Qfloor, Qplus, inject_Z. cbn [Qnum Qden].
  symmetry. apply (Z.div_unique _ _ _ 1); lia.
Qed.

Section LevelRating.
Variable rnd : Q -> Q.
Hypothesis rnd_monotone : forall a b : Q, (a <= b)%Q -> (rnd a <= rnd b)%Q.
Hypothesis rnd_integer :
  forall z : Z, Z.abs z <= 2 ^ 53 -> (rnd (inject_Z z) == inject_Z z)%Q.

(** An exact result that is an integer up to 2^53 is kept as it is. *)
Lemma to_number_exact (z : Z) (q : Q) :
  Z.abs z <= 2 ^ 53 -> (q == inject_Z z)%Q ->
  to_number rnd q = Fin (rnd q) /\ (rnd q == inject_Z z)%Q.
Proof.
  intros Hz Hq.
  destruct (to_number_within rnd rnd_monotone rnd_integer z z q)
    as (Hfin & Hlo & Hhi); [done | done | | |].
  - rewrite Hq. apply Qle_refl.
  - rewrite Hq. apply Qle_refl.
  - split; [done|]. by apply Qle_antisym.
Qed.

Lemma level_sum (z : Z) (ls : list BehavioralLoop) :
  Forall (fun loop => is_whole z (difficulty (intervention loop))) ls ->
  forall (k : Z) (s : Q),
    0 <= k -> (k + Z.of_nat (length ls)) * Z.abs z <= 2 ^ 53 ->
    (s == inject_Z (k * z))%Q ->
    exists total : Q,
      fold_left
        (fun sum loop => num_add rnd sum (difficulty (intervention loop)))
        ls (Fin s) = Fin total
      /\ (total == inject_Z ((k + Z.of_nat (length ls)) * z))%Q.
Proof.
  induction ls as [|l ls IH]; intros Hall k s Hk Hlen Hs.
  - exists s. simpl. by rewrite Z.add_0_r.
  - apply list.Forall_cons in Hall as [Hl Hall].
    cbn [fold_left length] in *. rewrite Nat2Z.inj_succ in Hlen |- *.
    replace (k + Z.succ (Z.of_nat (length ls)))
      with (k + 1 + Z.of_nat (length ls)) in * by lia.
    destruct (difficulty (intervention l)) as [d| | |]; try done.
    cbn [num_add is_whole] in *.
    destruct (to_number_exact ((k + 1) * z) (s + d)) as [-> Hsum]; [nia | |].
    + rewrite Hs, Hl, <- inject_Z_plus. f_equiv. lia.
    + apply IH; [done | lia | done | done].
Qed.

(** X15. When every loop has the same whole rating from 1 to 10, the average
    [getStatistics] reports is that rating. *)
Theorem average_of_equal_ratings (data : BehavioralLoopsData) (z : Z) :
  getAllLoops data <> [] ->
  Z.of_nat (length (getAllLoops data)) <= max_array_length ->
  1 <= z <= 10 ->
  Forall (fun loop => is_whole z (difficulty (intervention loop)))
    (getAllLoops data) ->
  exists q, averageInterventionDifficulty (getStatistics data rnd) = Fin q
            /\ (q == inject_Z z)%Q.
Proof.
  intros Hne Hlen Hz Hall. unfold max_array_length in Hlen.
  rewrite average_formula.
  pose proof (array_length_positive _ Hne) as Hpos.
  pose proof (array_length_nonzero _ Hne) as Hnz.
  destruct (level_sum z _ Hall 0 0%Q) as (s & Hfold & Hsum); [lia|nia|done|].
  rewrite Z.add_0_l, inject_Z_mult in Hsum.
  unfold difficulty_sum. rewrite Hfold.
  change (inject_Z (Z.of_nat (length (getAllLoops data))))
    with (array_length (getAllLoops data)) in Hsum.
  set (n := array_length (getAllLoops data)) in *.
  cbn [num_div]. rewrite Hnz.
  destruct (to_number_exact z (s / n)) as [-> Hmean]; [lia | |].
  { rewrite Hsum. field. lra. }
  cbn [num_mul].
  destruct (to_number_exact (z * 10) (rnd (s / n) * 10)) as [-> Hscaled];
    [lia | |].
  { by rewrite Hmean, inject_Z_mult. }
  cbn [Math_round].
  assert (Qfloor (rnd (rnd (s / n) * 10) + (1 # 2)) = z * 10) as ->.
  { rewrite Hscaled. apply Qfloor_half. }
  cbn [num_div]. change (Qeq_bool 10 0) with false. cbv iota.
  destruct (to_number_exact z (inject_Z (z * 10) / 10)) as [-> Hback];
    [lia | |].
  { rewrite inject_Z_mult. change (inject_Z 10) with 10%Q. field. }
  by eexists.
Qed.
End LevelRating.

Lemma average_of_equal_ratings_witness :
  exists q, averageInterventionDifficulty (getStatistics level_data chop) = Fin q
            /\ (q == inject_Z 7)%Q.
Proof.
  apply (average_of_equal_ratings chop chop_monotone chop_integer level_data 7).
  - discriminate.
  - vm_compute. discriminate.
  - lia.
  - repeat constructor.
Defined.

(** ** Lookups that match something *)

(** X2. [getLoopById] finds a loop exactly when some loop of the flattened
    list has the identifier, and what it finds has that identifier. *)
Theorem getLoopById_finds (data : BehavioralLoopsData) (i : Z) :
  (exists loop, loop ∈ getAllLoops data /\ id loop = i)
  <-> exists found, getLoopById data i = Some found
                    /\ found ∈ getAllLoops data /\ id found = i.
Proof.
  unfold getLoopById. split.
  - intros (loop & Hin & Hid).
    destruct (List.find _ (getAllLoops data)) as [found|] eqn:E.
    + exists found. apply find_some in E as [Hf Hfid].
      repeat split; [by apply list_elem_of_In | by apply Z.eqb_eq].
    + apply find_none with (x := loop) in E; [|by apply list_elem_of_In].
      apply Z.eqb_neq in E. done.
  - intros (found & _ & Hin & Hid). by exists found.
Qed.

Lemma getLoopById_finds_witness :
  exists found, getLoopById twin_data 1 = Some found
                /\ found ∈ getAllLoops twin_data /\ id found = 1.
Proof.
  apply (getLoopById_finds twin_data 1). exists loop_scroll.
  split; [left | reflexivity].
Defined.
